(** * A shallow embedding of [backend/main.py]

  The module wires an OpenTelemetry trace pipeline and log pipeline to a
  FastAPI application with three routes.  The embedding keeps the module's
  own code (module-level assignments and the three handlers) as monadic
  programs over an explicit state, and gives the library calls they make
  (the [logging] module, [os], the web framework's response conversion, the
  telemetry SDK's providers and batch processors) small executable models. *)

From Stdlib Require Import ZArith Ascii String.
From stdpp Require Import gmap strings list sorting.

Set Warnings "-register-all".

Open Scope string_scope.
Open Scope Z_scope.
Open Scope list_scope.

(** ** Python values, JSON, HTTP responses *)

Module Py.

(** The data values the handlers build. *)
Inductive value : Type :=
| VNone
| VInt (n : Z)
| VStr (s : string)
| VDict (items : list (string * value))
| VTuple (elems : list value).

(** What a route function hands back to the framework: plain data, or a
    response object ([FileResponse(path)]). *)
Inductive retval : Type :=
| Data (v : value)
| FileResponse (path : string).

Inductive exn : Type :=
| ZeroDivisionError
| RuntimeError (message : string).

Definition is_ZeroDivisionError (e : exn) : bool :=
  match e with ZeroDivisionError => true | _ => false end.

(** The result of [a / b] on integers, kept as an exact quotient. *)
Record quotient : Type := Quot { numerator : Z; denominator : Z }.

Definition truediv (a b : Z) : exn + quotient :=
  if b =? 0 then inl ZeroDivisionError else inr (Quot a b).

End Py.

Module Http.
Import Py.

Inductive json : Type :=
| JNull
| JNum (n : Z)
| JStr (s : string)
| JArr (elems : list json)
| JObj (members : list (string * json)).

Inductive body : Type :=
| JsonBody (j : json)
| BytesBody (content : list Byte.byte)
| TextBody (text : string).

Record Response : Type := mkResponse { status_code : Z; content : body }.

(** FastAPI's [jsonable_encoder]: dictionaries become objects, tuples and
    lists become arrays. *)
Fixpoint jsonable_encoder (v : value) : json :=
  match v with
  | VNone => JNull
  | VInt n => JNum n
  | VStr s => JStr s
  | VDict items => JObj (map (fun '(k, x) => (k, jsonable_encoder x)) items)
  | VTuple elems => JArr (map jsonable_encoder elems)
  end.

Definition internal_server_error : Response :=
  mkResponse 500 (TextBody "Internal Server Error").

Definition not_found : Response :=
  mkResponse 404 (JsonBody (JObj [("detail", JStr "Not Found")])).

End Http.

(** ** The file system seen by [os.path.exists] and [FileResponse] *)

Module Os.

Inductive node : Type :=
| File (content : list Byte.byte)
| Dir.

Definition path_exists (fs : gmap string node) (p : string) : bool :=
  bool_decide (is_Some (fs !! p)).

Definition ends_with_sep (a : string) : bool :=
  match String.rev a with
  | String c _ => bool_decide (c = "/"%char)
  | EmptyString => false
  end.

Definition is_abs (b : string) : bool :=
  match b with
  | String c _ => bool_decide (c = "/"%char)
  | EmptyString => false
  end.

(** [os.path.join(a, b)] on POSIX. *)
Definition path_join (a b : string) : string :=
  if is_abs b then b
  else if bool_decide (a = "") || ends_with_sep a then a +:+ b
  else a +:+ "/" +:+ b.

(** [os.getenv(key, default)]. *)
Definition getenv (env : gmap string string) (key default : string) : string :=
  match env !! key with
  | Some v => v
  | None => default
  end.

End Os.

(** ** Batch processors

    [BatchSpanProcessor(exporter)] and [BatchLogRecordProcessor(exporter)]
    are constructed by the module with the SDK's default limits; their code
    is the SDK's and is not part of the repository. *)

Module Batch.
Section Queue.

Context {A : Type}.

(** Modelled from the spec: the Batch Queue of §3, an ordered, bounded
    buffer of pending records.  Every record offered to the processor
    receives an arrival stamp, which only serves to state the properties;
    [exports] lists the export calls made so far, each with its outcome. *)
Record Processor : Type := mkProcessor {
  queue : list (nat * A);
  arrivals : nat;
  exports : list (bool * list (nat * A))
}.

Variables (max_queue_size max_export_batch_size : nat).

Definition empty : Processor := mkProcessor [] 0 [].

(** Modelled from the spec: the producer side of the Batch Queue (§3,
    §4.2 [end_span], §4.3 [emit]): append, unless the buffer is full. *)
Definition offer (x : A) (p : Processor) : Processor :=
  if (length (queue p) <? max_queue_size)%nat
  then mkProcessor (queue p ++ [(arrivals p, x)]) (S (arrivals p)) (exports p)
  else mkProcessor (queue p) (S (arrivals p)) (exports p).

(** Modelled from the spec: [flush] of §4.2, one export call with the
    oldest pending records.  The batch leaves the queue whether or not the
    collector was reachable: on transport failure it is dropped, not
    retried. *)
Definition flush (reachable : bool) (p : Processor) : Processor :=
  match take max_export_batch_size (queue p) with
  | [] => p
  | batch =>
      mkProcessor (drop max_export_batch_size (queue p)) (arrivals p)
                  (exports p ++ [(reachable, batch)])
  end.

(** Every record that was handed to an export call, in call order. *)
Definition exported (p : Processor) : list (nat * A) :=
  concat (snd <$> exports p).

(** The records that reached the collector. *)
Definition delivered (p : Processor) : list (nat * A) :=
  concat (snd <$> filter (fun b => fst b = true) (exports p)).

Inductive op : Type :=
| Offer (x : A)
| Flush (reachable : bool).

Definition apply (o : op) (p : Processor) : Processor :=
  match o with
  | Offer x => offer x p
  | Flush r => flush r p
  end.

Definition run (ops : list op) (p : Processor) : Processor :=
  fold_left (fun q o => apply o q) ops p.

(** Stamps increase along exported-then-pending records and stay below the
    arrival counter. *)
Definition ordered (p : Processor) : Prop :=
  StronglySorted lt (fst <$> exported p ++ queue p) ∧
  Forall (fun s => (s < arrivals p)%nat) (fst <$> exported p ++ queue p).

End Queue.
Arguments Processor : clear implicits.
Arguments op : clear implicits.
End Batch.

(** ** Telemetry objects *)

Module Otel.

(** [Resource(attributes={...})]. *)
Record Resource : Type := mkResource { attributes : gmap string string }.

Record Exporter : Type := mkExporter { endpoint : string }.

Definition OTLPSpanExporter (endpoint : string) : Exporter := mkExporter endpoint.
Definition OTLPLogExporter (endpoint : string) : Exporter := mkExporter endpoint.

(** A processor object as the module sees it: the exporter it was built
    around.  Its queue lives in the run-time state. *)
Record BatchProcessor : Type := mkBatchProcessor { exporter : Exporter }.

Definition BatchSpanProcessor (e : Exporter) : BatchProcessor := mkBatchProcessor e.
Definition BatchLogRecordProcessor (e : Exporter) : BatchProcessor := mkBatchProcessor e.

Record Provider : Type := mkProvider {
  provider_resource : Resource;
  processors : list BatchProcessor
}.

Definition TracerProvider (r : Resource) : Provider := mkProvider r [].
Definition SDKLoggerProvider (r : Resource) : Provider := mkProvider r [].

Definition add_span_processor (p : BatchProcessor) (tp : Provider) : Provider :=
  mkProvider (provider_resource tp) (processors tp ++ [p]).

Definition add_log_record_processor (p : BatchProcessor) (lp : Provider) : Provider :=
  mkProvider (provider_resource lp) (processors lp ++ [p]).

Record SpanContext : Type := mkSpanContext { trace_id : Z; span_id : Z }.

Record Span : Type := mkSpan {
  span_name : string;
  context : SpanContext;
  span_resource : Resource;
  http_status_code : Z
}.

(** A record of the log pipeline. *)
Record LogRecord : Type := mkLogRecord {
  log_body : string;
  severity_number : Z;
  log_attributes : gmap string string;
  log_trace_id : option Z;
  log_span_id : option Z;
  log_resource : Resource
}.

(** The SDK's default limits, which the module does not override. *)
Definition max_queue_size : nat := 2048.
Definition max_export_batch_size : nat := 512.

End Otel.

(** ** The [logging] module *)

Module Logging.
Import Py.

Definition NOTSET : Z := 0.
Definition WARNING : Z := 30.
Definition ERROR : Z := 40.

(** [logging.LogRecord]: the fields the module's calls fill in; the [extra]
    mapping becomes attributes of the record. *)
Record LogRecord : Type := mkLogRecord {
  levelno : Z;
  msg : string;
  exc_info : option exn;
  extra : gmap string string
}.

(** Modelled from the spec: the bridge of §4.3 ([emit]) that turns a
    [logging] record into a record of the log pipeline of a logger provider.
    It is the only kind of handler the model knows besides the [logging]
    module's last-resort handler; the module itself never constructs or
    attaches one. *)
Inductive Handler : Type :=
| LoggingHandler (lp : Otel.Provider).

Record Logger : Type := mkLogger {
  name : string;
  level : Z;
  handlers : list Handler
}.

(** [logging.getLogger(name)]: a fresh logger, level NOTSET, no handlers. *)
Definition getLogger (name : string) : Logger := mkLogger name NOTSET [].

(** The root logger's level is WARNING unless configured, and the module
    does not configure it. *)
Definition getEffectiveLevel (l : Logger) : Z :=
  if level l =? NOTSET then WARNING else level l.

Definition isEnabledFor (l : Logger) (lvl : Z) : bool :=
  getEffectiveLevel l <=? lvl.

End Logging.

(** ** The module [backend/main.py] *)

Module Main.
Import Py Http Os.

(** The names the module binds at import time. *)
Record Globals : Type := mkGlobals {
  resource : Otel.Resource;
  trace_provider : Otel.Provider;
  alloy_host : string;
  trace_exporter : Otel.Exporter;
  logger_provider : Otel.Provider;
  log_exporter : Otel.Exporter;
  logger : Logging.Logger;
  frontend_file_path : string
}.

(** The process state that the module's code and the libraries it calls
    read or change. *)
Record State : Type := mkState {
  globals : Globals;
  fs : gmap string node;
  handling : option exn;
  current_span : option Otel.SpanContext;
  next_id : Z;
  records : list Logging.LogRecord;
  stderr : list string;
  stdout : list string;
  span_queue : Batch.Processor Otel.Span;
  log_queue : Batch.Processor Otel.LogRecord
}.

Definition set_fs (x : gmap string node) (s : State) : State :=
  mkState (globals s) x (handling s) (current_span s) (next_id s) (records s)
          (stderr s) (stdout s) (span_queue s) (log_queue s).
Definition set_handling (x : option exn) (s : State) : State :=
  mkState (globals s) (fs s) x (current_span s) (next_id s) (records s)
          (stderr s) (stdout s) (span_queue s) (log_queue s).
Definition set_current_span (x : option Otel.SpanContext) (s : State) : State :=
  mkState (globals s) (fs s) (handling s) x (next_id s) (records s)
          (stderr s) (stdout s) (span_queue s) (log_queue s).
Definition set_next_id (x : Z) (s : State) : State :=
  mkState (globals s) (fs s) (handling s) (current_span s) x (records s)
          (stderr s) (stdout s) (span_queue s) (log_queue s).
Definition set_records (x : list Logging.LogRecord) (s : State) : State :=
  mkState (globals s) (fs s) (handling s) (current_span s) (next_id s) x
          (stderr s) (stdout s) (span_queue s) (log_queue s).
Definition set_stderr (x : list string) (s : State) : State :=
  mkState (globals s) (fs s) (handling s) (current_span s) (next_id s) (records s)
          x (stdout s) (span_queue s) (log_queue s).
Definition set_stdout (x : list string) (s : State) : State :=
  mkState (globals s) (fs s) (handling s) (current_span s) (next_id s) (records s)
          (stderr s) x (span_queue s) (log_queue s).
Definition set_span_queue (x : Batch.Processor Otel.Span) (s : State) : State :=
  mkState (globals s) (fs s) (handling s) (current_span s) (next_id s) (records s)
          (stderr s) (stdout s) x (log_queue s).
Definition set_log_queue (x : Batch.Processor Otel.LogRecord) (s : State) : State :=
  mkState (globals s) (fs s) (handling s) (current_span s) (next_id s) (records s)
          (stderr s) (stdout s) (span_queue s) x.

(** *** Statements: normal completion, [return], or a raised exception *)

Inductive completion (A : Type) : Type :=
| Normal (a : A)
| Return (r : retval)
| Raise (e : exn).
Arguments Normal {A} a.
Arguments Return {A} r.
Arguments Raise {A} e.

Definition M (A : Type) : Type := State -> completion A * State.

Definition ret {A} (a : A) : M A := fun st => (Normal a, st).

Definition bind {A B} (m : M A) (k : A -> M B) : M B :=
  fun st =>
    match m st with
    | (Normal a, st') => k a st'
    | (Return r, st') => (Return r, st')
    | (Raise e, st') => (Raise e, st')
    end.

Notation "x <- m ;; k" := (bind m (fun x => k))
  (at level 100, m at next level, right associativity).
Notation "m ;; k" := (bind m (fun _ => k))
  (at level 100, right associativity).

Definition return_ {A} (r : retval) : M A := fun st => (Return r, st).

(** An expression that may raise. *)
Definition eval {A} (r : exn + A) : M A :=
  fun st => match r with inl e => (Raise e, st) | inr a => (Normal a, st) end.

Definition get {A} (f : State -> A) : M A := fun st => (Normal (f st), st).

(** [try: body  except <matches> as e: handler].  While the handler runs
    the caught exception is the one [sys.exc_info()] reports. *)
Definition try_except (body : M unit) (matches : exn -> bool)
    (handler : exn -> M unit) : M unit :=
  fun st =>
    match body st with
    | (Raise e, st') =>
        if matches e then
          let '(c, st'') := handler e (set_handling (Some e) st') in
          (c, set_handling (handling st') st'')
        else (Raise e, st')
    | other => other
    end.

(** Calling a function: falling off the end returns [None]. *)
Definition call (f : M unit) (st : State) : (exn + retval) * State :=
  match f st with
  | (Normal _, st') => (inr (Data VNone), st')
  | (Return r, st') => (inr r, st')
  | (Raise e, st') => (inl e, st')
  end.

(** *** Logger calls *)

(** Modelled from the spec: [emit] of §4.3, what an attached bridge handler
    does with a [logging] record: build the pipeline record, stamped with
    the identifiers of the span active now (if any) and with the logger
    provider's resource, and offer it to the batch processor. *)
Definition emit_to (h : Logging.Handler) (r : Logging.LogRecord) (st : State) : State :=
  match h with
  | Logging.LoggingHandler lp =>
      let rec :=
        Otel.mkLogRecord (Logging.msg r) (Logging.levelno r) (Logging.extra r)
          (Otel.trace_id <$> current_span st) (Otel.span_id <$> current_span st)
          (Otel.provider_resource lp) in
      set_log_queue (Batch.offer Otel.max_queue_size rec (log_queue st)) st
  end.

(** [logging.lastResort]: used when no handler is found; writes records of
    level WARNING and above to standard error. *)
Definition lastResort (r : Logging.LogRecord) (st : State) : State :=
  if Logging.WARNING <=? Logging.levelno r
  then set_stderr (stderr st ++ [Logging.msg r]) st
  else st.

Definition callHandlers (l : Logging.Logger) (r : Logging.LogRecord) (st : State) : State :=
  match Logging.handlers l with
  | [] => lastResort r st
  | hs => fold_left (fun s h => emit_to h r s) hs st
  end.

(** [logger.log(lvl, message, exc_info=..., extra=...)] on the module's
    logger.  With [exc_info=True] the record takes the exception being
    handled. *)
Definition log (lvl : Z) (message : string) (with_exc_info : bool)
    (extra : gmap string string) : M unit :=
  fun st =>
    let l := logger (globals st) in
    if Logging.isEnabledFor l lvl then
      let r := Logging.mkLogRecord lvl message
                 (if with_exc_info then handling st else None) extra in
      (Normal tt, callHandlers l r (set_records (records st ++ [r]) st))
    else (Normal tt, st).

Definition logger_warning := log Logging.WARNING.
Definition logger_error := log Logging.ERROR.

Definition print (line : string) : M unit :=
  fun st => (Normal tt, set_stdout (stdout st ++ [line]) st).

Definition os_path_exists (p : string) : M bool :=
  fun st => (Normal (path_exists (fs st) p), st).

(** *** The route functions *)

Definition api_root : M unit :=
  logger_warning "API root endpoint (/api/root) was called" false
    {[ "client.ip" := "127.0.0.1" ]} ;;
  return_ (Data (VDict [("message", VStr "Hello World. Log and Trace sent.")])).

Definition make_error : M unit :=
  try_except
    (x <- eval (truediv 1 0) ;; ret tt)
    is_ZeroDivisionError
    (fun e =>
       logger_error "A simulated error occurred" true
         {[ "error.type" := "ZeroDivisionError" ]} ;;
       return_ (Data (VDict [("message", VStr "Error log and trace span sent.")]))).

Definition serve_frontend : M unit :=
  path <- get (fun st => frontend_file_path (globals st)) ;;
  found <- os_path_exists path ;;
  if negb found then
    logger_error ("Frontend file " +:+ path +:+ " not found.") false ∅ ;;
    return_ (Data (VTuple [VDict [("error", VStr "Frontend not found")]; VInt 404]))
  else
    return_ (FileResponse path).

(** *** Import-time code *)

Record Process : Type := mkProcess {
  environ : gmap string string;
  dunder_name : string;
  module_dir : string
}.

(** The module-level assignments, in source order.  The calls
    [trace.set_tracer_provider], [trace.get_tracer], [set_logger_provider],
    [FastAPI()] and [instrument_app] register the objects with the libraries;
    what they enable at request time is in [handle] below. *)
Definition module_globals (p : Process) : Globals :=
  let resource :=
    Otel.mkResource {[ "service.name" := "fastapi-backend";
                       "environment" := "local-dev" ]} in
  let trace_provider := Otel.TracerProvider resource in
  let alloy_host := getenv (environ p) "ALLOY_HOST" "alloy" in
  let trace_exporter :=
    Otel.OTLPSpanExporter ("http://" +:+ alloy_host +:+ ":4319/v1/traces") in
  let trace_provider :=
    Otel.add_span_processor (Otel.BatchSpanProcessor trace_exporter) trace_provider in
  let logger_provider := Otel.SDKLoggerProvider resource in
  let log_exporter :=
    Otel.OTLPLogExporter ("http://" +:+ alloy_host +:+ ":4319/v1/logs") in
  let logger_provider :=
    Otel.add_log_record_processor (Otel.BatchLogRecordProcessor log_exporter)
      logger_provider in
  let logger := Logging.getLogger (dunder_name p) in
  let frontend_file_path :=
    path_join (path_join (module_dir p) "frontend") "index.html" in
  mkGlobals resource trace_provider alloy_host trace_exporter logger_provider
    log_exporter logger frontend_file_path.

Definition startup_check : M unit :=
  path <- get (fun st => frontend_file_path (globals st)) ;;
  found <- os_path_exists path ;;
  if negb found then
    logger_error ("Frontend file not found at: " +:+ path) false ∅ ;;
    print ("Error: Frontend file not found at: " +:+ path)
  else ret tt.

Definition startup (p : Process) (fs0 : gmap string node) : State :=
  snd (startup_check
         (mkState (module_globals p) fs0 None None 1 [] [] []
                  Batch.empty Batch.empty)).

(** *** The framework around the route functions *)

(** [FileResponse] reads the file when the response is sent. *)
Definition send_file (files : gmap string node) (p : string) : exn + Response :=
  match files !! p with
  | Some (File b) => inr (mkResponse 200 (BytesBody b))
  | Some Dir => inl (RuntimeError ("File at path " +:+ p +:+ " is not a file."))
  | None => inl (RuntimeError ("File at path " +:+ p +:+ " does not exist."))
  end.

(** A response object is sent as it is; any other return value is encoded
    as JSON and sent with the route's default status, 200.  An exception
    that leaves the route function becomes a 500. *)
Definition to_response (files : gmap string node) (out : exn + retval) : Response :=
  match out with
  | inr (Data v) => mkResponse 200 (JsonBody (jsonable_encoder v))
  | inr (FileResponse p) =>
      match send_file files p with
      | inr r => r
      | inl _ => internal_server_error
      end
  | inl _ => internal_server_error
  end.

Inductive request : Type :=
| GET (path : string).

(** The three [@app.get] registrations. *)
Definition route (path : string) : option (M unit) :=
  if bool_decide (path = "/api/root") then Some api_root
  else if bool_decide (path = "/error") then Some make_error
  else if bool_decide (path = "/") then Some serve_frontend
  else None.

(** One request under [FastAPIInstrumentor.instrument_app(app)], as §2 and
    §4.2 ([start_span], [end_span]) describe it: a span is opened and made
    current, the route function runs, the span is ended and offered to the
    span processor.  Identifiers are drawn from a counter. *)
Definition handle (req : request) (st : State) : Response * State :=
  let 'GET path := req in
  let ctx := Otel.mkSpanContext (next_id st) (next_id st + 1) in
  let st1 := set_current_span (Some ctx) (set_next_id (next_id st + 2) st) in
  let '(resp, st2) :=
    match route path with
    | Some f => let '(out, s) := call f st1 in (to_response (fs s) out, s)
    | None => (not_found, st1)
    end in
  let span :=
    Otel.mkSpan ("GET " +:+ path) ctx
      (Otel.provider_resource (trace_provider (globals st2))) (status_code resp) in
  (resp,
   set_current_span (current_span st)
     (set_span_queue (Batch.offer Otel.max_queue_size span (span_queue st2)) st2)).

(** *** What can happen to a running process *)

Inductive event : Type :=
| Request (r : request)
| FlushSpans (reachable : bool)
| FlushLogs (reachable : bool)
| FsWrite (p : string) (n : node)
| FsRemove (p : string).

Definition step (e : event) (st : State) : option Response * State :=
  match e with
  | Request r => let '(resp, st') := handle r st in (Some resp, st')
  | FlushSpans b =>
      (None, set_span_queue (Batch.flush Otel.max_export_batch_size b (span_queue st)) st)
  | FlushLogs b =>
      (None, set_log_queue (Batch.flush Otel.max_export_batch_size b (log_queue st)) st)
  | FsWrite p n => (None, set_fs (<[p := n]> (fs st)) st)
  | FsRemove p => (None, set_fs (delete p (fs st)) st)
  end.

Fixpoint run (evs : list event) (st : State) : list Response * State :=
  match evs with
  | [] => ([], st)
  | e :: evs' =>
      let '(r, st') := step e st in
      let '(rs, st'') := run evs' st' in
      (match r with Some x => x :: rs | None => rs end, st'')
  end.

Definition responses (evs : list event) (st : State) : list Response :=
  fst (run evs st).

Definition after (evs : list event) (st : State) : State :=
  snd (run evs st).

(** Export outcomes are the only thing [without_exports] forgets. *)
Definition is_flush (e : event) : bool :=
  match e with FlushSpans _ | FlushLogs _ => true | _ => false end.

Definition without_exports (evs : list event) : list event :=
  filter (fun e => is_flush e = false) evs.

(** *** Vocabulary for the properties *)

(** The state after a logger call. *)
Definition logged (lvl : Z) (message : string) (with_exc_info : bool)
    (extra : gmap string string) (st : State) : State :=
  snd (log lvl message with_exc_info extra st).

(** The values the route functions return. *)
Definition root_payload : value :=
  VDict [("message", VStr "Hello World. Log and Trace sent.")].

Definition error_payload : value :=
  VDict [("message", VStr "Error log and trace span sent.")].

Definition missing_payload : value :=
  VTuple [VDict [("error", VStr "Frontend not found")]; VInt 404].

(** What a logger call leaves alone. *)
Record frame (st st' : State) : Prop := mkFrame {
  frame_globals : globals st' = globals st;
  frame_fs : fs st' = fs st;
  frame_handling : handling st' = handling st;
  frame_current_span : current_span st' = current_span st;
  frame_next_id : next_id st' = next_id st;
  frame_span_queue : span_queue st' = span_queue st;
  frame_log_exports : Batch.exports (log_queue st') = Batch.exports (log_queue st)
}.

(** The response to [GET /] as a function of what the file system holds at
    the frontend path when the request is served. *)
Definition frontend_response (n : option node) : Response :=
  match n with
  | Some (File b) => mkResponse 200 (BytesBody b)
  | Some Dir => internal_server_error
  | None => mkResponse 200 (JsonBody (jsonable_encoder missing_payload))
  end.

Definition expected_response (st : State) (req : request) : Response :=
  let 'GET path := req in
  if bool_decide (path = "/api/root")
  then mkResponse 200 (JsonBody (jsonable_encoder root_payload))
  else if bool_decide (path = "/error")
  then mkResponse 200 (JsonBody (jsonable_encoder error_payload))
  else if bool_decide (path = "/")
  then frontend_response (fs st !! frontend_file_path (globals st))
  else not_found.

(** Two states that a request cannot tell apart. *)
Definition same_inputs (st st' : State) : Prop :=
  globals st = globals st' ∧ fs st = fs st'.

(** Both providers, and every attached bridge handler, hold the module's
    resource. *)
Definition wired (g : Globals) : Prop :=
  Otel.provider_resource (trace_provider g) = resource g ∧
  Otel.provider_resource (logger_provider g) = resource g ∧
  Forall (fun h => match h with
                   | Logging.LoggingHandler lp =>
                       Otel.provider_resource lp = resource g
                   end) (Logging.handlers (logger g)).

(** Every span and every pipeline log record, pending or exported, carries
    the resource [res]. *)
Definition all_carry (res : Otel.Resource) (st : State) : Prop :=
  Forall (fun s => Otel.span_resource (snd s) = res)
         (Batch.exported (span_queue st) ++ Batch.queue (span_queue st)) ∧
  Forall (fun r => Otel.log_resource (snd r) = res)
         (Batch.exported (log_queue st) ++ Batch.queue (log_queue st)).

(** Both queues hold and have exported their records in arrival order. *)
Definition queues_ordered (st : State) : Prop :=
  Batch.ordered (span_queue st) ∧ Batch.ordered (log_queue st).

(** A process for the worked examples: no environment variables, the module
    imported as [main] from [/app]. *)
Definition sample_process : Process := mkProcess ∅ "main" "/app".

Definition sample_index : list Byte.byte := [Byte.x3c; Byte.x70; Byte.x3e].

Definition sample_files : gmap string node :=
  {[ "/app/frontend/index.html" := File sample_index ]}.

(** Events that are requests, and events that change the file system. *)
Definition is_request (e : event) : bool :=
  match e with Request _ => true | _ => false end.

Definition is_fs_event (e : event) : bool :=
  match e with FsWrite _ _ | FsRemove _ => true | _ => false end.

Definition count_requests (evs : list event) : nat :=
  length (filter (fun e => is_request e = true) evs).

(** Standard error holds one entry per record, in creation order. *)
Definition mirrored (st : State) : Prop :=
  stderr st = Logging.msg <$> records st.

(** A file system whose frontend path is a directory. *)
Definition sample_dir_files : gmap string node :=
  {[ "/app/frontend/index.html" := Dir ]}.

(** A [logging] record none of whose attributes is one of the resource's. *)
Definition lacks_resource (r : Logging.LogRecord) : Prop :=
  Logging.extra r !! "service.name" = None ∧
  Logging.extra r !! "environment" = None.

End Main.

(** * Properties *)

(** ** Batch queues *)

Section BatchFacts.

Context {A : Type}.
Variables (cap n : nat).
Implicit Types (p : Batch.Processor A) (x : A).

Lemma exported_flush b p :
  Batch.exported (Batch.flush n b p) = Batch.exported p ++ take n (Batch.queue p).
Proof.
  unfold Batch.flush.
  destruct (take n (Batch.queue p)) as [|y batch] eqn:E.
  - by rewrite app_nil_r.
  - unfold Batch.exported; simpl.
    by rewrite fmap_app, concat_app; simpl; rewrite app_nil_r.
Qed.

Lemma queue_flush b p :
  Batch.queue (Batch.flush n b p) = drop n (Batch.queue p).
Proof.
  unfold Batch.flush.
  destruct (take n (Batch.queue p)) as [|y batch] eqn:E; [|done].
  rewrite <- (take_drop n (Batch.queue p)) at 1. by rewrite E.
Qed.

Lemma arrivals_flush b p :
  Batch.arrivals (Batch.flush n b p) = Batch.arrivals p.
Proof. unfold Batch.flush. by destruct (take n (Batch.queue p)). Qed.

(** A flush moves records from the queue to the exported list and neither
    adds nor loses one. *)
Lemma flush_conserves b p :
  Batch.exported (Batch.flush n b p) ++ Batch.queue (Batch.flush n b p)
  = Batch.exported p ++ Batch.queue p.
Proof. by rewrite exported_flush, queue_flush, <- app_assoc, take_drop. Qed.

Lemma exported_offer x p :
  Batch.exported (Batch.offer cap x p) = Batch.exported p.
Proof. unfold Batch.offer. by case_match. Qed.

Lemma flush_ordered b p : Batch.ordered p → Batch.ordered (Batch.flush n b p).
Proof.
  unfold Batch.ordered. by rewrite flush_conserves, arrivals_flush.
Qed.

Lemma offer_ordered x p : Batch.ordered p → Batch.ordered (Batch.offer cap x p).
Proof.
  unfold Batch.ordered. intros [Hs Hb].
  assert (Hb' : Forall (fun s => (s < S (Batch.arrivals p))%nat)
                  (fst <$> Batch.exported p ++ Batch.queue p)).
  { eapply Forall_impl; [exact Hb | simpl; lia]. }
  rewrite exported_offer. unfold Batch.offer. case_match; simpl; [|done].
  rewrite app_assoc, fmap_app. simpl. split.
  - apply StronglySorted_app_2; [|done|repeat constructor].
    intros s1 s2 H1 ->%list_elem_of_singleton.
    by eapply Forall_forall in Hb.
  - apply Forall_app. split; [done|]. repeat constructor; lia.
Qed.

Lemma empty_ordered : Batch.ordered (@Batch.empty A).
Proof. split; constructor. Qed.

Lemma run_ordered ops p :
  Batch.ordered p → Batch.ordered (Batch.run cap n ops p).
Proof.
  revert p. induction ops as [|o ops IH]; intros p Hp; [done|].
  simpl. apply IH. destruct o; simpl; auto using offer_ordered, flush_ordered.
Qed.

(** Two flush cycles in a row hand over two consecutive segments of the
    queue. *)
Lemma exported_two_flushes b1 b2 p :
  Batch.exported (Batch.flush n b2 (Batch.flush n b1 p)) =
  Batch.exported p ++ take n (Batch.queue p) ++ take n (drop n (Batch.queue p)).
Proof. by rewrite !exported_flush, queue_flush, <- app_assoc. Qed.

(** A failed export call delivers nothing, and its batch is gone from the
    queue all the same. *)
Lemma flush_failure_drops p :
  Batch.delivered (Batch.flush n false p) = Batch.delivered p ∧
  Batch.queue (Batch.flush n false p) = drop n (Batch.queue p).
Proof.
  split; [|apply queue_flush]. unfold Batch.flush.
  destruct (take n (Batch.queue p)) as [|y batch]; [done|].
  unfold Batch.delivered; simpl. rewrite filter_app.
  rewrite (filter_cons_False _ _ []) by done. by rewrite filter_nil, app_nil_r.
Qed.

(** Increasing stamps leave no room for a repeated record. *)
Lemma ordered_NoDup p : Batch.ordered p → NoDup (Batch.exported p).
Proof.
  intros [Hs _]. rewrite fmap_app in Hs.
  apply StronglySorted_app_1_l in Hs.
  apply (NoDup_fmap_1 fst).
  induction Hs as [|s l _ IH Hall]; constructor; [|done].
  intros Hin. eapply Forall_forall in Hall; [|exact Hin]. lia.
Qed.

End BatchFacts.

(** ** What the route functions compute *)

Section Handlers.
Import Main Py Http Os.

Lemma log_eq lvl message b extra st :
  log lvl message b extra st = (Normal tt, logged lvl message b extra st).
Proof. unfold logged, log. by case_match. Qed.

Lemma api_root_eq st :
  api_root st =
  (Return (Data root_payload),
   logged Logging.WARNING "API root endpoint (/api/root) was called" false
     {[ "client.ip" := "127.0.0.1" ]} st).
Proof.
  unfold api_root, bind, logger_warning. by rewrite log_eq.
Qed.

Lemma make_error_eq st :
  make_error st =
  (Return (Data error_payload),
   set_handling (handling st)
     (logged Logging.ERROR "A simulated error occurred" true
        {[ "error.type" := "ZeroDivisionError" ]}
        (set_handling (Some ZeroDivisionError) st))).
Proof.
  unfold make_error, try_except, bind, logger_error; simpl.
  by rewrite log_eq.
Qed.

Lemma serve_frontend_eq st :
  serve_frontend st =
  let path := frontend_file_path (globals st) in
  if path_exists (fs st) path
  then (Return (FileResponse path), st)
  else (Return (Data missing_payload),
        logged Logging.ERROR ("Frontend file " +:+ path +:+ " not found.") false ∅ st).
Proof.
  unfold serve_frontend, bind, get, os_path_exists, logger_error; simpl.
  destruct (path_exists _ _); simpl; [done|]. by rewrite log_eq.
Qed.

Lemma frame_refl st : frame st st.
Proof. by constructor. Qed.

Lemma frame_trans st1 st2 st3 : frame st1 st2 → frame st2 st3 → frame st1 st3.
Proof. intros [] []; constructor; congruence. Qed.

Lemma emit_to_frame h r st : frame st (emit_to h r st).
Proof.
  destruct h; constructor; simpl; try done.
  unfold Batch.offer. by case_match.
Qed.

Lemma emit_all_frame hs r st :
  frame st (fold_left (fun s h => emit_to h r s) hs st).
Proof.
  revert st. induction hs as [|h hs IH]; intros st; simpl.
  - apply frame_refl.
  - eapply frame_trans; [apply emit_to_frame | apply IH].
Qed.

Lemma lastResort_frame r st : frame st (lastResort r st).
Proof. unfold lastResort. case_match; by constructor. Qed.

Lemma callHandlers_frame l r st : frame st (callHandlers l r st).
Proof.
  unfold callHandlers. destruct (Logging.handlers l) eqn:E.
  - apply lastResort_frame.
  - apply emit_all_frame.
Qed.

Lemma logged_frame lvl message b extra st : frame st (logged lvl message b extra st).
Proof.
  unfold logged, log. case_match; simpl; [|apply frame_refl].
  eapply frame_trans; [|apply callHandlers_frame]. by constructor.
Qed.

Lemma api_root_frame st : frame st (snd (api_root st)).
Proof. rewrite api_root_eq. apply logged_frame. Qed.

Lemma make_error_frame st : frame st (snd (make_error st)).
Proof.
  rewrite make_error_eq; simpl.
  destruct (logged_frame Logging.ERROR "A simulated error occurred" true
              {[ "error.type" := "ZeroDivisionError" ]}
              (set_handling (Some ZeroDivisionError) st)).
  by constructor.
Qed.

Lemma serve_frontend_frame st : frame st (snd (serve_frontend st)).
Proof.
  rewrite serve_frontend_eq; simpl. case_match; simpl.
  - apply frame_refl.
  - apply logged_frame.
Qed.

Lemma route_frame path f st : route path = Some f → frame st (snd (f st)).
Proof.
  unfold route. repeat case_bool_decide; intros [= <-];
    auto using api_root_frame, make_error_frame, serve_frontend_frame.
Qed.

Lemma call_snd f st : snd (call f st) = snd (f st).
Proof. unfold call. by destruct (f st) as [[]]. Qed.

(** *** Requests *)

Lemma path_exists_lookup (files : gmap string node) p :
  path_exists files p = match files !! p with Some _ => true | None => false end.
Proof.
  unfold path_exists. destruct (files !! p) eqn:E.
  - apply bool_decide_eq_true. eauto.
  - apply bool_decide_eq_false. by intros [? ?].
Qed.

Lemma handle_response req st : fst (handle req st) = expected_response st req.
Proof.
  destruct req as [path]. unfold handle, expected_response, route.
  repeat case_bool_decide; subst; unfold call.
  - by rewrite api_root_eq.
  - by rewrite make_error_eq.
  - rewrite serve_frontend_eq; simpl. rewrite path_exists_lookup.
    destruct (fs st !! frontend_file_path (globals st)) as [[b|]|] eqn:E; simpl.
    + unfold send_file. by rewrite E.
    + unfold send_file. by rewrite E.
    + done.
  - done.
Qed.

(** The state a request leaves behind: what the route function left, plus
    the ended span. *)
Lemma handle_state path st :
  let st1 := set_current_span
               (Some (Otel.mkSpanContext (next_id st) (next_id st + 1)))
               (set_next_id (next_id st + 2) st) in
  let st2 := match route path with Some f => snd (f st1) | None => st1 end in
  snd (handle (GET path) st) =
  set_current_span (current_span st)
    (set_span_queue
       (Batch.offer Otel.max_queue_size
          (Otel.mkSpan ("GET " +:+ path)
             (Otel.mkSpanContext (next_id st) (next_id st + 1))
             (Otel.provider_resource (trace_provider (globals st2)))
             (status_code (fst (handle (GET path) st))))
          (span_queue st2)) st2).
Proof.
  simpl. unfold handle. destruct (route path) as [f|]; [|done].
  unfold call. by destruct (f _) as [[]].
Qed.

Lemma handle_served path st :
  let st1 := set_current_span
               (Some (Otel.mkSpanContext (next_id st) (next_id st + 1)))
               (set_next_id (next_id st + 2) st) in
  frame st1 (match route path with Some f => snd (f st1) | None => st1 end).
Proof.
  simpl. destruct (route path) as [f|] eqn:E.
  - by eapply route_frame.
  - apply frame_refl.
Qed.

Lemma handle_globals req st : globals (snd (handle req st)) = globals st.
Proof.
  destruct req as [path]. rewrite handle_state; simpl.
  by destruct (handle_served path st).
Qed.

Lemma handle_fs req st : fs (snd (handle req st)) = fs st.
Proof.
  destruct req as [path]. rewrite handle_state; simpl.
  by destruct (handle_served path st).
Qed.

Lemma handle_span_exports req st :
  Batch.exports (span_queue (snd (handle req st))) = Batch.exports (span_queue st).
Proof.
  destruct req as [path]. rewrite handle_state; simpl.
  destruct (handle_served path st) as [_ _ _ _ _ -> _].
  unfold Batch.offer. by case_match.
Qed.

Lemma handle_log_exports req st :
  Batch.exports (log_queue (snd (handle req st))) = Batch.exports (log_queue st).
Proof.
  destruct req as [path]. rewrite handle_state; simpl.
  by destruct (handle_served path st).
Qed.

(** *** Runs *)

Lemma step_request r st :
  step (Request r) st = (Some (fst (handle r st)), snd (handle r st)).
Proof. simpl. by destruct (handle r st). Qed.

Lemma step_globals e st : globals (snd (step e st)) = globals st.
Proof.
  destruct e; try done. rewrite step_request. apply handle_globals.
Qed.

Lemma after_cons e evs st : after (e :: evs) st = after evs (snd (step e st)).
Proof.
  unfold after; simpl. destruct (step e st) as [o st']; simpl.
  by destruct (run evs st').
Qed.

Lemma after_globals evs st : globals (after evs st) = globals st.
Proof.
  revert st. induction evs as [|e evs IH]; intros st; [done|].
  by rewrite after_cons, IH, step_globals.
Qed.

Lemma startup_check_eq st :
  startup_check st =
  let path := frontend_file_path (globals st) in
  (Normal tt,
   if path_exists (fs st) path then st
   else
     let st' := logged Logging.ERROR ("Frontend file not found at: " +:+ path)
                  false ∅ st in
     set_stdout (stdout st' ++ ["Error: Frontend file not found at: " +:+ path]) st').
Proof.
  unfold startup_check, bind, get, os_path_exists, logger_error, print, ret; simpl.
  destruct (path_exists _ _); simpl; [done|]. by rewrite log_eq.
Qed.

Lemma startup_frame p fs0 :
  frame (mkState (module_globals p) fs0 None None 1 [] [] [] Batch.empty Batch.empty)
        (startup p fs0).
Proof.
  unfold startup. rewrite startup_check_eq; simpl.
  destruct (path_exists _ _); [apply frame_refl|].
  eapply frame_trans; [apply logged_frame|]. by constructor.
Qed.

Lemma startup_globals p fs0 : globals (startup p fs0) = module_globals p.
Proof. by destruct (startup_frame p fs0). Qed.

Lemma running_globals p fs0 evs :
  globals (after evs (startup p fs0)) = module_globals p.
Proof. by rewrite after_globals, startup_globals. Qed.

End Handlers.

(** ** The three routes *)

Section Routes.
Import Main Py Http Os.

Variables (p : Process) (fs0 : gmap string node).

(** With the module's logger (level NOTSET under a root at WARNING, no
    handler attached) a call at WARNING or above creates one record and hands
    it to the last-resort handler. *)
Lemma logged_module lvl message b extra st :
  globals st = module_globals p →
  Logging.WARNING <= lvl →
  logged lvl message b extra st =
  set_stderr (stderr st ++ [message])
    (set_records
       (records st ++
          [Logging.mkLogRecord lvl message (if b then handling st else None) extra])
       st).
Proof.
  intros Hg Hl. unfold logged, log. rewrite Hg. simpl.
  unfold Logging.isEnabledFor, Logging.getEffectiveLevel; simpl.
  assert ((Logging.WARNING <=? lvl) = true) as E by (apply Z.leb_le; done).
  rewrite E. simpl. unfold callHandlers; simpl.
  unfold lastResort; simpl. by rewrite E.
Qed.

Ltac module_logger :=
  first [eassumption | unfold Logging.WARNING, Logging.ERROR; lia].

Lemma handle_records path st :
  records (snd (handle (GET path) st)) =
  records (match route path with
           | Some f =>
               snd (f (set_current_span
                         (Some (Otel.mkSpanContext (next_id st) (next_id st + 1)))
                         (set_next_id (next_id st + 2) st)))
           | None => st
           end).
Proof.
  rewrite handle_state; simpl. by destruct (route path).
Qed.

Lemma api_root_records st :
  globals st = module_globals p →
  records (snd (handle (GET "/api/root") st)) = records st ++
  [Logging.mkLogRecord Logging.WARNING "API root endpoint (/api/root) was called"
     None {[ "client.ip" := "127.0.0.1" ]}].
Proof.
  intros Hg. rewrite handle_records; simpl.
  rewrite api_root_eq; simpl. by rewrite logged_module by module_logger.
Qed.

Lemma make_error_records st :
  globals st = module_globals p →
  records (snd (handle (GET "/error") st)) = records st ++
  [Logging.mkLogRecord Logging.ERROR "A simulated error occurred"
     (Some ZeroDivisionError) {[ "error.type" := "ZeroDivisionError" ]}].
Proof.
  intros Hg. rewrite handle_records; simpl.
  rewrite make_error_eq; simpl. by rewrite logged_module by module_logger.
Qed.

Lemma serve_frontend_records st :
  globals st = module_globals p →
  records (snd (handle (GET "/") st)) = records st ++
  match fs st !! frontend_file_path (module_globals p) with
  | Some _ => []
  | None =>
      [Logging.mkLogRecord Logging.ERROR
         ("Frontend file " +:+ frontend_file_path (module_globals p) +:+ " not found.")
         None ∅]
  end.
Proof.
  intros Hg. rewrite <- Hg.
  destruct (fs st !! frontend_file_path (globals st)) eqn:E;
    rewrite handle_records; simpl;
    rewrite serve_frontend_eq; simpl; rewrite path_exists_lookup, E; simpl.
  - by rewrite app_nil_r.
  - by rewrite logged_module by module_logger.
Qed.

End Routes.

(** ** Invariants of the two queues *)

Section QueueInvariants.
Import Main Py Http Os.

(** A property [Q] of the log queue that every offer made by a [good]
    bridge handler preserves. *)
Variables (Q : Batch.Processor Otel.LogRecord → Prop)
          (good : Logging.Handler → Prop).

Hypothesis Q_offer : ∀ lp body sev attrs t s q,
  good (Logging.LoggingHandler lp) → Q q →
  Q (Batch.offer Otel.max_queue_size
       (Otel.mkLogRecord body sev attrs t s (Otel.provider_resource lp)) q).

Lemma emit_all_inv hs r st :
  Forall good hs → Q (log_queue st) →
  Q (log_queue (fold_left (fun s h => emit_to h r s) hs st)).
Proof.
  revert st. induction hs as [|[lp] hs IH]; intros st Hg Hq; simpl; [done|].
  apply Forall_cons in Hg as [Hh Hg]. apply IH; [done|]. simpl. by apply Q_offer.
Qed.

Lemma logged_inv lvl message b extra st :
  Forall good (Logging.handlers (logger (globals st))) → Q (log_queue st) →
  Q (log_queue (logged lvl message b extra st)).
Proof.
  intros Hg Hq. unfold logged, log. case_match; simpl; [|done].
  unfold callHandlers.
  destruct (Logging.handlers (logger (globals st))) as [|h hs] eqn:E.
  - unfold lastResort; simpl. by case_match.
  - by apply emit_all_inv.
Qed.

Lemma route_inv path f st :
  route path = Some f →
  Forall good (Logging.handlers (logger (globals st))) → Q (log_queue st) →
  Q (log_queue (snd (f st))).
Proof.
  unfold route. repeat case_bool_decide; intros [= <-] Hg Hq.
  - rewrite api_root_eq. by apply logged_inv.
  - rewrite make_error_eq; simpl. by apply (logged_inv _ _ _ _ (set_handling _ st)).
  - rewrite serve_frontend_eq; simpl. case_match; [done|]. by apply logged_inv.
Qed.

Lemma handle_inv req st :
  Forall good (Logging.handlers (logger (globals st))) → Q (log_queue st) →
  Q (log_queue (snd (handle req st))).
Proof.
  intros Hg Hq. destruct req as [path]. rewrite handle_state; simpl.
  destruct (route path) as [f|] eqn:E; [|done].
  by eapply route_inv.
Qed.

End QueueInvariants.

Section QueueOrder.
Import Main Py Http Os.

Lemma handle_span_queue path st :
  ∃ span, span_queue (snd (handle (GET path) st)) =
          Batch.offer Otel.max_queue_size span (span_queue st) ∧
          Otel.span_resource span = Otel.provider_resource (trace_provider (globals st)) ∧
          Otel.context span = Otel.mkSpanContext (next_id st) (next_id st + 1).
Proof.
  rewrite handle_state; simpl. eexists; split; [|split]; simpl.
  - by destruct (handle_served path st) as [_ _ _ _ _ -> _].
  - simpl. by destruct (handle_served path st) as [-> _ _ _ _ _ _].
  - done.
Qed.

Lemma step_ordered e st : queues_ordered st → queues_ordered (snd (step e st)).
Proof.
  intros [Hs Hl]. destruct e as [[path]| | | |]; try done.
  - rewrite step_request. cbn [snd]. split.
    + destruct (handle_span_queue path st) as (span & -> & _).
      by apply offer_ordered.
    + apply (handle_inv Batch.ordered (fun _ => True)); [|by apply Forall_true|done].
      intros. by apply offer_ordered.
  - split; [by apply flush_ordered|done].
  - split; [done|by apply flush_ordered].
Qed.

Lemma after_ordered evs st : queues_ordered st → queues_ordered (after evs st).
Proof.
  revert st. induction evs as [|e evs IH]; intros st H; [done|].
  rewrite after_cons. by apply IH, step_ordered.
Qed.

Lemma startup_span_queue p fs0 : span_queue (startup p fs0) = Batch.empty.
Proof. by destruct (startup_frame p fs0). Qed.

Lemma startup_log_queue p fs0 : log_queue (startup p fs0) = Batch.empty.
Proof.
  unfold startup. rewrite startup_check_eq; simpl. by case_match.
Qed.

Lemma startup_ordered p fs0 : queues_ordered (startup p fs0).
Proof.
  split; rewrite ?startup_span_queue, ?startup_log_queue; apply empty_ordered.
Qed.

End QueueOrder.

(** ** The resource carried by spans and log records *)

Section Carry.
Import Main Py Http Os.

Lemma offer_carry {A} (P : A → Prop) cap x (q : Batch.Processor A) :
  P x →
  Forall (fun s => P (snd s)) (Batch.exported q ++ Batch.queue q) →
  Forall (fun s => P (snd s))
         (Batch.exported (Batch.offer cap x q) ++ Batch.queue (Batch.offer cap x q)).
Proof.
  intros Hx Hq. rewrite exported_offer. unfold Batch.offer.
  case_match; simpl; [|done].
  rewrite app_assoc. apply Forall_app. split; [done|]. by repeat constructor.
Qed.

Lemma flush_carry {A} (P : nat * A → Prop) n b (q : Batch.Processor A) :
  Forall P (Batch.exported q ++ Batch.queue q) →
  Forall P (Batch.exported (Batch.flush n b q) ++ Batch.queue (Batch.flush n b q)).
Proof. by rewrite flush_conserves. Qed.

Lemma step_carry e st :
  wired (globals st) →
  all_carry (resource (globals st)) st →
  all_carry (resource (globals st)) (snd (step e st)).
Proof.
  intros (Ht & Hl & Hh) [Hs Hq]. destruct e as [[path]| | | |]; try done.
  - rewrite step_request. cbn [snd]. split.
    + destruct (handle_span_queue path st) as (span & -> & Hres & _).
      apply (offer_carry (fun s => Otel.span_resource s = resource (globals st)));
        [congruence|done].
    + apply (handle_inv
               (fun q => Forall (fun r => Otel.log_resource (snd r) = resource (globals st))
                           (Batch.exported q ++ Batch.queue q))
               (fun h => match h with
                         | Logging.LoggingHandler lp =>
                             Otel.provider_resource lp = resource (globals st)
                         end)); [|done|done].
      intros lp body sev attrs t s q Hlp Hforall.
      by apply (offer_carry (fun r => Otel.log_resource r = resource (globals st))).
  - split; [|done]. simpl. by apply flush_carry.
  - split; [done|]. simpl. by apply flush_carry.
Qed.

Lemma after_carry evs st :
  wired (globals st) →
  all_carry (resource (globals st)) st →
  all_carry (resource (globals st)) (after evs st).
Proof.
  revert st. induction evs as [|e evs IH]; intros st Hw Hc; [done|].
  rewrite after_cons. rewrite <- (step_globals e st).
  apply IH; rewrite step_globals; [done|]. by apply step_carry.
Qed.

Lemma module_wired p : wired (module_globals p).
Proof. repeat split. constructor. Qed.

Lemma startup_carry p fs0 res : all_carry res (startup p fs0).
Proof.
  unfold all_carry. rewrite startup_span_queue, startup_log_queue.
  split; constructor.
Qed.

End Carry.

(** ** The log pipeline of the module as written *)

Section Unbridged.
Import Main Py Http Os.

Lemma flush_empty {A} n b : Batch.flush n b (@Batch.empty A) = Batch.empty.
Proof. unfold Batch.flush; simpl. by rewrite take_nil. Qed.

Lemma step_unbridged e st :
  Logging.handlers (logger (globals st)) = [] →
  log_queue st = Batch.empty →
  log_queue (snd (step e st)) = Batch.empty.
Proof.
  intros Hh Hq. destruct e as [r| | | |]; try done.
  - rewrite step_request. cbn [snd].
    apply (handle_inv (fun q => q = Batch.empty) (fun _ => False)); [done| |done].
    rewrite Hh. constructor.
  - simpl. rewrite Hq. apply flush_empty.
Qed.

Lemma after_unbridged evs st :
  Logging.handlers (logger (globals st)) = [] →
  log_queue st = Batch.empty →
  log_queue (after evs st) = Batch.empty.
Proof.
  revert st. induction evs as [|e evs IH]; intros st Hh Hq; [done|].
  rewrite after_cons. apply IH; [by rewrite step_globals|by apply step_unbridged].
Qed.

(** Had a bridge handler been attached, the pipeline record would carry the
    identifiers of the span active when the record is emitted, or none. *)
Lemma bridge_stamps lp r st :
  let st' := emit_to (Logging.LoggingHandler lp) r st in
  ∃ rec,
    log_queue st' = Batch.offer Otel.max_queue_size rec (log_queue st) ∧
    Otel.log_trace_id rec = Otel.trace_id <$> current_span st ∧
    Otel.log_span_id rec = Otel.span_id <$> current_span st.
Proof. simpl. by eexists. Qed.

End Unbridged.

(** ** Requests do not see exports *)

Section Isolation.
Import Main Py Http Os.

Lemma expected_response_same st st' req :
  same_inputs st st' → expected_response st req = expected_response st' req.
Proof. intros [Hg Hf]. destruct req. unfold expected_response. by rewrite Hg, Hf. Qed.

Lemma step_same e st st' :
  same_inputs st st' →
  fst (step e st) = fst (step e st') ∧
  same_inputs (snd (step e st)) (snd (step e st')).
Proof.
  intros [Hg Hf]. destruct e as [r| | | |]; try (by repeat split; simpl; congruence).
  rewrite !step_request; simpl. rewrite !handle_response. split.
  - f_equal. by apply expected_response_same.
  - split; by rewrite ?handle_globals, ?handle_fs.
Qed.

Lemma step_flush e st :
  is_flush e = true → fst (step e st) = None ∧ same_inputs (snd (step e st)) st.
Proof. by destruct e. Qed.

Lemma responses_cons e evs st :
  responses (e :: evs) st =
  match fst (step e st) with
  | Some r => r :: responses evs (snd (step e st))
  | None => responses evs (snd (step e st))
  end.
Proof.
  unfold responses; simpl. destruct (step e st) as [o st']; simpl.
  by destruct (run evs st').
Qed.

Lemma responses_without_exports evs st st' :
  same_inputs st st' → responses evs st = responses (without_exports evs) st'.
Proof.
  revert st st'. induction evs as [|e evs IH]; intros st st' Hs; [done|].
  unfold without_exports. rewrite filter_cons. fold (without_exports evs).
  rewrite responses_cons. destruct (is_flush e) eqn:E.
  - rewrite decide_False by done.
    destruct (step_flush e st E) as [-> Hs'].
    apply IH. destruct Hs, Hs'. split; congruence.
  - rewrite decide_True by done. rewrite responses_cons.
    destruct (step_same e st st' Hs) as [<- Hs'].
    destruct (fst (step e st)); [f_equal|]; by apply IH.
Qed.

Lemma same_inputs_refl st : same_inputs st st.
Proof. by split. Qed.

End Isolation.

(** * The claims *)

Section Claims.
Import Main Py Http Os.

Lemma getenv_default (env : gmap string string) key d :
  getenv env key d = default d (env !! key).
Proof. unfold getenv. by destruct (env !! key). Qed.

Lemma append_inv_head (h a b : string) : h +:+ a = h +:+ b → a = b.
Proof. induction h as [|c h IH]; simpl; [done|]. intros [= H]. by apply IH. Qed.

(** A request to [GET /] while the frontend path holds a regular file. *)
Lemma serve_frontend_file_present p fs0 evs b :
  let st := after evs (startup p fs0) in
  fs st !! frontend_file_path (module_globals p) = Some (File b) →
  fst (handle (GET "/") st) = mkResponse 200 (BytesBody b) ∧
  records (snd (handle (GET "/") st)) = records st.
Proof.
  intros st E. pose proof (running_globals p fs0 evs) as Hg. fold st in Hg.
  split.
  - rewrite handle_response; simpl. by rewrite Hg, E.
  - rewrite (serve_frontend_records p); [|done]. by rewrite E, app_nil_r.
Qed.

(** A request to [GET /] while nothing exists at the frontend path. *)
Lemma serve_frontend_file_absent p fs0 evs :
  let st := after evs (startup p fs0) in
  fs st !! frontend_file_path (module_globals p) = None →
  fst (handle (GET "/") st) =
    mkResponse 200
      (JsonBody (JArr [JObj [("error", JStr "Frontend not found")]; JNum 404])) ∧
  records (snd (handle (GET "/") st)) = records st ++
    [Logging.mkLogRecord Logging.ERROR
       ("Frontend file " +:+ frontend_file_path (module_globals p) +:+ " not found.")
       None ∅].
Proof.
  intros st E. pose proof (running_globals p fs0 evs) as Hg. fold st in Hg.
  split.
  - rewrite handle_response; simpl. by rewrite Hg, E.
  - rewrite (serve_frontend_records p); [|done]. by rewrite E.
Qed.

(** C1, evaluated where it fails: with no file at the frontend path, the
    response to [GET /] has status 200, not 404; its body is the JSON array
    made from the pair the route function returns, and the route function
    logs one record at ERROR. *)
Theorem serve_frontend_missing_file_status :
  let st := startup sample_process ∅ in
  fst (handle (GET "/") st) =
    mkResponse 200
      (JsonBody (JArr [JObj [("error", JStr "Frontend not found")]; JNum 404])) ∧
  status_code (fst (handle (GET "/") st)) ≠ 404 ∧
  records (snd (handle (GET "/") st)) = records st ++
    [Logging.mkLogRecord Logging.ERROR
       "Frontend file /app/frontend/index.html not found." None ∅].
Proof. vm_compute. repeat split. discriminate. Qed.

(** C2: every request to [GET /error] is answered with status 200 and the
    fixed JSON payload; the route function creates exactly one record, at
    ERROR, whose exception context is the caught [ZeroDivisionError]; the
    call of the route function returns and raises nothing. *)
Theorem make_error_response (p : Process) (fs0 : gmap string node) (evs : list event) :
  let st := after evs (startup p fs0) in
  fst (handle (GET "/error") st) =
    mkResponse 200
      (JsonBody (JObj [("message", JStr "Error log and trace span sent.")])) ∧
  records (snd (handle (GET "/error") st)) = records st ++
    [Logging.mkLogRecord Logging.ERROR "A simulated error occurred"
       (Some ZeroDivisionError) {[ "error.type" := "ZeroDivisionError" ]}] ∧
  ∀ s, fst (call make_error s) = inr (Data error_payload).
Proof.
  intros st. split; [|split].
  - by rewrite handle_response.
  - apply (make_error_records p), running_globals.
  - intros s. unfold call. by rewrite make_error_eq.
Qed.

(** C3: every request to [GET /api/root] is answered with status 200 and
    the fixed JSON payload, and the route function creates exactly one
    record, at WARNING. *)
Theorem api_root_response (p : Process) (fs0 : gmap string node) (evs : list event) :
  let st := after evs (startup p fs0) in
  fst (handle (GET "/api/root") st) =
    mkResponse 200
      (JsonBody (JObj [("message", JStr "Hello World. Log and Trace sent.")])) ∧
  records (snd (handle (GET "/api/root") st)) = records st ++
    [Logging.mkLogRecord Logging.WARNING "API root endpoint (/api/root) was called"
       None {[ "client.ip" := "127.0.0.1" ]}].
Proof.
  intros st. split.
  - by rewrite handle_response.
  - apply (api_root_records p), running_globals.
Qed.

(** C4: two runs that differ only in when flushes happen and in whether the
    collector was reachable answer every request alike (status and body);
    and serving a request makes no export call on either pipeline. *)
Theorem export_outcome_hidden_from_requests (evs evs' : list event) (st : State) :
  without_exports evs = without_exports evs' →
  responses evs st = responses evs' st ∧
  ∀ req,
    Batch.exports (span_queue (snd (handle req st))) = Batch.exports (span_queue st) ∧
    Batch.exports (log_queue (snd (handle req st))) = Batch.exports (log_queue st).
Proof.
  intros H. split.
  - rewrite (responses_without_exports evs st st (same_inputs_refl st)).
    rewrite (responses_without_exports evs' st st (same_inputs_refl st)).
    by rewrite H.
  - intros req. split; [apply handle_span_exports | apply handle_log_exports].
Qed.

Lemma export_outcome_hidden_witness :
  let evs := [Request (GET "/api/root"); FlushSpans false; Request (GET "/")] in
  let evs' := [Request (GET "/api/root"); Request (GET "/"); FlushSpans true;
               FlushLogs true] in
  let st := startup sample_process sample_files in
  without_exports evs = without_exports evs' ∧
  responses evs st = responses evs' st ∧
  ∀ req,
    Batch.exports (span_queue (snd (handle req st))) = Batch.exports (span_queue st) ∧
    Batch.exports (log_queue (snd (handle req st))) = Batch.exports (log_queue st).
Proof.
  split; [reflexivity|].
  apply (export_outcome_hidden_from_requests
           [Request (GET "/api/root"); FlushSpans false; Request (GET "/")]
           [Request (GET "/api/root"); Request (GET "/"); FlushSpans true;
            FlushLogs true]
           (startup sample_process sample_files)).
  reflexivity.
Defined.

(** The module as written attaches no handler to its logger, so nothing is
    ever offered to the log pipeline. *)
Lemma log_pipeline_never_fed p fs0 evs :
  log_queue (after evs (startup p fs0)) = Batch.empty.
Proof.
  apply after_unbridged; [by rewrite startup_globals | apply startup_log_queue].
Qed.

(** No span is active while the module is imported, and the record created
    by the import-time check reaches no pipeline. *)
Lemma startup_record_uncorrelated p fs0 :
  current_span (startup p fs0) = None ∧ log_queue (startup p fs0) = Batch.empty.
Proof.
  split; [by destruct (startup_frame p fs0) | apply startup_log_queue].
Qed.

(** C5, evaluated where it fails: [GET /api/root] runs inside the span with
    trace identifier 1 and span identifier 2, which is ended and queued; the
    route function creates its WARNING record, whose attributes are only
    [client.ip]; the record goes to standard error and no record at all
    enters the log pipeline, so no record carries the span's identifiers. *)
Theorem api_root_record_uncorrelated :
  let st := startup sample_process sample_files in
  let st' := snd (handle (GET "/api/root") st) in
  Batch.queue (span_queue st') =
    [(0%nat, Otel.mkSpan "GET /api/root" (Otel.mkSpanContext 1 2)
               (resource (globals st)) 200)] ∧
  records st' = records st ++
    [Logging.mkLogRecord Logging.WARNING "API root endpoint (/api/root) was called"
       None {[ "client.ip" := "127.0.0.1" ]}] ∧
  stderr st' = ["API root endpoint (/api/root) was called"] ∧
  log_queue st' = Batch.empty.
Proof. vm_compute. repeat split. Qed.

(** C6: the collector host is [ALLOY_HOST] from the environment, [alloy]
    when unset; for that host [h] the span exporter's endpoint is
    [http://h:4319/v1/traces] and the log exporter's is
    [http://h:4319/v1/logs]; these are the exporters of the two batch
    processors, the two endpoints differ, and no event changes them. *)
Theorem collector_endpoints (p : Process) (fs0 : gmap string node) (evs : list event) :
  let g := globals (after evs (startup p fs0)) in
  let h := default "alloy" (environ p !! "ALLOY_HOST") in
  alloy_host g = h ∧
  Otel.endpoint (trace_exporter g) = "http://" +:+ h +:+ ":4319/v1/traces" ∧
  Otel.endpoint (log_exporter g) = "http://" +:+ h +:+ ":4319/v1/logs" ∧
  Otel.processors (trace_provider g) = [Otel.BatchSpanProcessor (trace_exporter g)] ∧
  Otel.processors (logger_provider g) = [Otel.BatchLogRecordProcessor (log_exporter g)] ∧
  Otel.endpoint (trace_exporter g) ≠ Otel.endpoint (log_exporter g).
Proof.
  intros g h. subst g. rewrite running_globals. simpl.
  rewrite getenv_default. fold h. repeat split.
  intros [= H]. simpl in H. apply (append_inv_head h) in H. discriminate H.
Qed.

(** The exporters depend on the environment through [ALLOY_HOST] alone. *)
Lemma exporters_depend_on_host_only p p' :
  environ p !! "ALLOY_HOST" = environ p' !! "ALLOY_HOST" →
  trace_exporter (module_globals p) = trace_exporter (module_globals p') ∧
  log_exporter (module_globals p) = log_exporter (module_globals p').
Proof. intros H. simpl. rewrite !getenv_default, H. done. Qed.

(** What holds of the resource: it is the value built at import time, with
    the service name and the environment; both providers hold it in every
    state the process reaches; and every span, pending or exported, carries
    it. *)
Lemma resource_on_providers_and_spans
    (p : Process) (fs0 : gmap string node) (evs : list event) :
  let st := after evs (startup p fs0) in
  let res := Otel.mkResource {[ "service.name" := "fastapi-backend";
                                "environment" := "local-dev" ]} in
  resource (globals st) = res ∧
  Otel.provider_resource (trace_provider (globals st)) = res ∧
  Otel.provider_resource (logger_provider (globals st)) = res ∧
  Forall (fun s => Otel.span_resource (snd s) = res)
         (Batch.exported (span_queue st) ++ Batch.queue (span_queue st)).
Proof.
  intros st res. subst st. rewrite running_globals. repeat split; try done.
  pose proof (after_carry evs (startup p fs0)) as H.
  rewrite startup_globals in H.
  by destruct (H (module_wired p) (startup_carry p fs0 _)).
Qed.

(** C8: for a batch queue of any record type, after any sequence of offers
    and flushes (reachable collector or not) the records handed to export
    calls followed by the pending ones are in strictly increasing arrival
    order, so no record is exported twice; the same holds for the span
    queue and the log queue of the running process. *)
Theorem batch_export_at_most_once_in_order :
  (∀ (A : Type) (cap n : nat) (ops : list (Batch.op A)),
     let q := Batch.run cap n ops Batch.empty in
     Batch.ordered q ∧ NoDup (Batch.exported q)) ∧
  (∀ (p : Process) (fs0 : gmap string node) (evs : list event),
     let st := after evs (startup p fs0) in
     queues_ordered st ∧
     NoDup (Batch.exported (span_queue st)) ∧
     NoDup (Batch.exported (log_queue st))).
Proof.
  split.
  - intros A cap n ops q.
    assert (Batch.ordered q) by apply run_ordered, empty_ordered.
    split; [done | by apply ordered_NoDup].
  - intros p fs0 evs st.
    assert (queues_ordered st) as H by apply after_ordered, startup_ordered.
    split; [done|]. destruct H. split; by apply ordered_NoDup.
Qed.

(** C9: in every state [1 / 0] raises [ZeroDivisionError], the [except]
    clause matches it, and the route function completes with the [return] of
    the [except] branch: it neither falls off its end (which would return
    [None]) nor raises. *)
Theorem make_error_always_returns (st : State) :
  truediv 1 0 = inl ZeroDivisionError ∧
  is_ZeroDivisionError ZeroDivisionError = true ∧
  fst (make_error st) = Return (Data error_payload) ∧
  fst (make_error st) ≠ Normal tt ∧
  (∀ e, fst (make_error st) ≠ Raise e) ∧
  fst (call make_error st) = inr (Data error_payload) ∧
  fst (call make_error st) ≠ inr (Data VNone).
Proof.
  unfold call. rewrite make_error_eq; simpl. repeat split; done.
Qed.

(** C10: each route function leaves the module-level names as they were
    (and with them the file system, the span queue and the exports of the
    log queue); so does the whole handling of any request; and the response
    to [GET /] is a function of what the file system holds at the frontend
    path when the request is served. *)
Theorem handlers_leave_module_state (st : State) :
  frame st (snd (api_root st)) ∧
  frame st (snd (make_error st)) ∧
  frame st (snd (serve_frontend st)) ∧
  (∀ req, globals (snd (handle req st)) = globals st) ∧
  fst (handle (GET "/") st) =
    frontend_response (fs st !! frontend_file_path (globals st)).
Proof.
  split; [apply api_root_frame|].
  split; [apply make_error_frame|].
  split; [apply serve_frontend_frame|].
  split; [intros req; apply handle_globals|].
  by rewrite handle_response.
Qed.

(** The import-time check found no file; the file is written afterwards and
    the next request serves it.  Conversely a file present at import time
    and removed later is reported missing. *)
Lemma frontend_follows_file_system :
  responses [FsWrite "/app/frontend/index.html" (File sample_index);
             Request (GET "/")]
            (startup sample_process ∅)
  = [mkResponse 200 (BytesBody sample_index)] ∧
  responses [FsRemove "/app/frontend/index.html"; Request (GET "/")]
            (startup sample_process sample_files)
  = [mkResponse 200
       (JsonBody (JArr [JObj [("error", JStr "Frontend not found")]; JNum 404]))].
Proof. vm_compute. by split. Qed.

End Claims.

(** * Further properties of the module *)

(** ** Strings and paths *)

Section Paths.
Import Main Py Http Os.

Lemma append_assoc (a b c : string) : (a +:+ b) +:+ c = a +:+ (b +:+ c).
Proof.
  induction a as [|x a IH]; [done|].
  change (String x ((a +:+ b) +:+ c) = String x (a +:+ (b +:+ c))). by rewrite IH.
Qed.

Lemma rev_app_append (a b acc : string) :
  String.rev_app (a +:+ b) acc = String.rev_app b (String.rev_app a acc).
Proof.
  revert acc. induction a as [|x a IH]; intros acc; [done|].
  change (String.rev_app (a +:+ b) (String x acc)
          = String.rev_app b (String.rev_app a (String x acc))).
  apply IH.
Qed.

Lemma list_ascii_of_append (a b : string) :
  list_ascii_of_string (a +:+ b) = list_ascii_of_string a ++ list_ascii_of_string b.
Proof.
  induction a as [|x a IH]; [done|].
  change (x :: list_ascii_of_string (a +:+ b)
          = x :: list_ascii_of_string a ++ list_ascii_of_string b).
  by rewrite IH.
Qed.

Lemma append_inv_tail (a b s : string) : a +:+ s = b +:+ s → a = b.
Proof.
  intros H. apply (f_equal list_ascii_of_string) in H.
  rewrite !list_ascii_of_append in H. apply app_inv_tail in H.
  apply (f_equal string_of_list_ascii) in H.
  by rewrite !string_of_list_ascii_of_string in H.
Qed.

Lemma ends_with_sep_frontend (a : string) : ends_with_sep (a +:+ "frontend") = false.
Proof. unfold ends_with_sep, String.rev. by rewrite rev_app_append. Qed.

Lemma append_frontend_nonempty (a : string) : a +:+ "frontend" ≠ "".
Proof. by destruct a. Qed.

Lemma path_join_frontend (a : string) :
  path_join (a +:+ "frontend") "index.html" = a +:+ "frontend/index.html".
Proof.
  unfold path_join; simpl.
  rewrite bool_decide_eq_false_2 by apply append_frontend_nonempty.
  rewrite ends_with_sep_frontend; simpl. by rewrite append_assoc.
Qed.

End Paths.

(** ** Import time *)

Section ImportTime.
Import Main Py Http Os.

(** X1: The frontend path is [frontend/index.html] under the module's directory:
    joined with one separator when the directory does not already end in
    one, and relative when the directory is empty. *)
Theorem frontend_path_shape (p : Process) :
  frontend_file_path (module_globals p) =
  (if bool_decide (module_dir p = "") || ends_with_sep (module_dir p)
   then module_dir p
   else module_dir p +:+ "/") +:+ "frontend/index.html".
Proof.
  simpl. unfold path_join at 2. simpl.
  destruct (bool_decide (module_dir p = "") || ends_with_sep (module_dir p)).
  - apply path_join_frontend.
  - rewrite <- (append_assoc (module_dir p) "/" "frontend").
    rewrite path_join_frontend. by rewrite append_assoc.
Qed.

Lemma startup_outputs (p : Process) (fs0 : gmap string node) :
  let path := frontend_file_path (module_globals p) in
  let st := startup p fs0 in
  if path_exists fs0 path
  then records st = [] ∧ stderr st = [] ∧ stdout st = []
  else
    records st = [Logging.mkLogRecord Logging.ERROR
                    ("Frontend file not found at: " +:+ path) None ∅] ∧
    stderr st = ["Frontend file not found at: " +:+ path] ∧
    stdout st = ["Error: Frontend file not found at: " +:+ path].
Proof.
  intros path st.
  subst st. unfold startup. rewrite startup_check_eq. cbn [snd globals fs].
  fold path. destruct (path_exists fs0 path); [done|].
  by rewrite (logged_module p)
    by first [reflexivity | unfold Logging.WARNING, Logging.ERROR; lia].
Qed.

(** X2: Importing the module always completes and yields the same module-level
    names.  When something exists at the frontend path it logs and prints
    nothing; otherwise it creates exactly one ERROR record, which the
    last-resort handler writes to standard error, and prints exactly one
    line to standard output, both naming the path. *)
Theorem import_check_outcome (p : Process) (fs0 : gmap string node) :
  let path := frontend_file_path (module_globals p) in
  let st := startup p fs0 in
  globals st = module_globals p ∧
  fs st = fs0 ∧
  if path_exists fs0 path
  then records st = [] ∧ stderr st = [] ∧ stdout st = []
  else
    records st = [Logging.mkLogRecord Logging.ERROR
                    ("Frontend file not found at: " +:+ path) None ∅] ∧
    stderr st = ["Frontend file not found at: " +:+ path] ∧
    stdout st = ["Error: Frontend file not found at: " +:+ path].
Proof.
  intros path st. split; [apply startup_globals|].
  split; [by destruct (startup_frame p fs0)|].
  apply startup_outputs.
Qed.

End ImportTime.

(** ** Requests in any state *)

Section AnyState.
Import Main Py Http Os.

Lemma handle_stderr path st :
  stderr (snd (handle (GET path) st)) =
  stderr (match route path with
          | Some f =>
              snd (f (set_current_span
                        (Some (Otel.mkSpanContext (next_id st) (next_id st + 1)))
                        (set_next_id (next_id st + 2) st)))
          | None => st
          end).
Proof. rewrite handle_state; simpl. by destruct (route path). Qed.

(** X3: With a regular file at the frontend path, [GET /] answers 200 with
    exactly the file's bytes, and the route function logs nothing, whatever
    the logger's configuration. *)
Theorem frontend_file_served (st : State) (b : list Byte.byte) :
  fs st !! frontend_file_path (globals st) = Some (File b) →
  fst (handle (GET "/") st) = mkResponse 200 (BytesBody b) ∧
  records (snd (handle (GET "/") st)) = records st ∧
  stderr (snd (handle (GET "/") st)) = stderr st.
Proof.
  intros E. split; [|split].
  - rewrite handle_response; simpl. by rewrite E.
  - rewrite handle_records; simpl. rewrite serve_frontend_eq; simpl.
    by rewrite path_exists_lookup, E.
  - rewrite handle_stderr; simpl. rewrite serve_frontend_eq; simpl.
    by rewrite path_exists_lookup, E.
Qed.

Lemma frontend_file_served_witness :
  fs (startup sample_process sample_files)
    !! frontend_file_path (globals (startup sample_process sample_files))
  = Some (File sample_index) ∧
  fst (handle (GET "/") (startup sample_process sample_files))
  = mkResponse 200 (BytesBody sample_index).
Proof.
  split; [reflexivity|].
  apply (frontend_file_served (startup sample_process sample_files) sample_index).
  reflexivity.
Defined.

(** X4: [os.path.exists] also accepts a directory: with a directory at the
    frontend path the route function skips its own error branch, logs
    nothing and returns the file response, which cannot be sent; the
    request ends in a 500. *)
Theorem frontend_directory_fails (st : State) :
  fs st !! frontend_file_path (globals st) = Some Dir →
  fst (call serve_frontend st) = inr (FileResponse (frontend_file_path (globals st))) ∧
  fst (handle (GET "/") st) = mkResponse 500 (TextBody "Internal Server Error") ∧
  records (snd (handle (GET "/") st)) = records st.
Proof.
  intros E. split; [|split].
  - unfold call. rewrite serve_frontend_eq; simpl.
    by rewrite path_exists_lookup, E.
  - rewrite handle_response; simpl. by rewrite E.
  - rewrite handle_records; simpl. rewrite serve_frontend_eq; simpl.
    by rewrite path_exists_lookup, E.
Qed.

Lemma frontend_directory_fails_witness :
  fs (startup sample_process sample_dir_files)
    !! frontend_file_path (globals (startup sample_process sample_dir_files))
  = Some Dir ∧
  fst (handle (GET "/") (startup sample_process sample_dir_files))
  = mkResponse 500 (TextBody "Internal Server Error").
Proof.
  split; [reflexivity|].
  apply (frontend_directory_fails (startup sample_process sample_dir_files)).
  reflexivity.
Defined.

(** X5: No route function lets an exception escape: in any state the call
    of each of the module's three route functions returns a value.  The
    response to a registered route has status 500 exactly when the route is
    [GET /] and the frontend path is a directory (the returned file response
    cannot be sent), and status 200 in every other case. *)
Theorem registered_route_status (st : State) (path : string) (f : M unit) :
  route path = Some f →
  (∀ s, ∃ r, fst (call f s) = inr r) ∧
  ((path = "/" ∧ fs st !! frontend_file_path (globals st) = Some Dir ∧
    status_code (fst (handle (GET path) st)) = 500) ∨
   ((path ≠ "/" ∨ fs st !! frontend_file_path (globals st) ≠ Some Dir) ∧
    status_code (fst (handle (GET path) st)) = 200)).
Proof.
  intros Hf. split.
  - intros s. unfold route in Hf.
    repeat case_bool_decide; try discriminate; injection Hf as <-; unfold call.
    + rewrite api_root_eq. by eexists.
    + rewrite make_error_eq. by eexists.
    + rewrite serve_frontend_eq; simpl. destruct (path_exists _ _); by eexists.
  - rewrite handle_response. unfold route in Hf. unfold expected_response.
    repeat case_bool_decide; try discriminate; subst path; simpl.
    + right. split; [by left | done].
    + right. split; [by left | done].
    + destruct (fs st !! frontend_file_path (globals st)) as [[b|]|]; simpl.
      * right. split; [by right | done].
      * by left.
      * right. split; [by right | done].
Qed.

Lemma registered_route_status_witness :
  let st := startup sample_process sample_dir_files in
  route "/" = Some serve_frontend ∧
  (∀ s, ∃ r, fst (call serve_frontend s) = inr r) ∧
  (("/" = "/" ∧ fs st !! frontend_file_path (globals st) = Some Dir ∧
    status_code (fst (handle (GET "/") st)) = 500) ∨
   (("/" ≠ "/" ∨ fs st !! frontend_file_path (globals st) ≠ Some Dir) ∧
    status_code (fst (handle (GET "/") st)) = 200)).
Proof.
  split; [reflexivity|].
  apply (registered_route_status
           (startup sample_process sample_dir_files) "/" serve_frontend).
  reflexivity.
Defined.

End AnyState.

(** ** The log over a run *)

Section LogGrowth.
Import Main Py Http Os.

Lemma grows_nil (l : list Logging.LogRecord) (n : nat) :
  ∃ rs, l = l ++ rs ∧ (length rs ≤ n)%nat.
Proof. exists []. split; [by rewrite app_nil_r | simpl; lia]. Qed.

Lemma emit_all_records hs r st :
  records (fold_left (fun s h => emit_to h r s) hs st) = records st ∧
  stderr (fold_left (fun s h => emit_to h r s) hs st) = stderr st.
Proof.
  revert st. induction hs as [|h hs IH]; intros st; [done|].
  cbn [fold_left]. destruct (IH (emit_to h r st)) as [-> ->]. by destruct h.
Qed.

Lemma callHandlers_records l r st : records (callHandlers l r st) = records st.
Proof.
  unfold callHandlers. destruct (Logging.handlers l) as [|h hs].
  - unfold lastResort. by case_match.
  - apply emit_all_records.
Qed.

(** A logger call appends one record or, when the level is disabled, none. *)
Lemma logged_records lvl message b extra st :
  ∃ rs, records (logged lvl message b extra st) = records st ++ rs ∧
        (length rs ≤ 1)%nat.
Proof.
  unfold logged, log. case_match; simpl.
  - rewrite callHandlers_records; simpl. eexists; split; [done|]. simpl; lia.
  - apply grows_nil.
Qed.

Lemma route_records path f st :
  route path = Some f →
  ∃ rs, records (snd (f st)) = records st ++ rs ∧ (length rs ≤ 1)%nat.
Proof.
  unfold route. repeat case_bool_decide; intros [= <-].
  - rewrite api_root_eq. apply logged_records.
  - rewrite make_error_eq; simpl.
    apply (logged_records _ _ _ _ (set_handling (Some ZeroDivisionError) st)).
  - rewrite serve_frontend_eq; simpl. case_match; simpl.
    + apply grows_nil.
    + apply logged_records.
Qed.

Lemma handle_grows req st :
  ∃ rs, records (snd (handle req st)) = records st ++ rs ∧ (length rs ≤ 1)%nat.
Proof.
  destruct req as [path]. rewrite handle_records.
  destruct (route path) as [f|] eqn:E.
  - by apply (route_records path f (set_current_span _ (set_next_id _ st))).
  - apply grows_nil.
Qed.

Lemma count_requests_cons e evs :
  count_requests (e :: evs) =
  ((if is_request e then 1 else 0) + count_requests evs)%nat.
Proof.
  unfold count_requests. rewrite filter_cons.
  destruct (is_request e); [by rewrite decide_True|by rewrite decide_False].
Qed.

(** X6: Whatever the logger's configuration, a run only ever appends to the
    log: earlier records stay in place unchanged, and the records added are
    at most as many as the requests served. *)
Theorem records_grow_by_requests (evs : list event) (st : State) :
  ∃ rs, records (after evs st) = records st ++ rs ∧
        (length rs ≤ count_requests evs)%nat.
Proof.
  revert st. induction evs as [|e evs IH]; intros st.
  - apply grows_nil.
  - rewrite after_cons, count_requests_cons.
    destruct (IH (snd (step e st))) as (rs & -> & Hlen).
    assert (∃ rs0, records (snd (step e st)) = records st ++ rs0 ∧
                   (length rs0 ≤ if is_request e then 1 else 0)%nat)
      as (rs0 & -> & H0).
    { destruct e as [r| | | |];
        [rewrite step_request; apply handle_grows | simpl; apply grows_nil ..]. }
    exists (rs0 ++ rs). rewrite app_assoc, length_app. split; [done|lia].
Qed.

End LogGrowth.

(** ** Where the module's records go *)

Section Mirror.
Import Main Py Http Os.

Variable p : Process.

Lemma mirrored_logged lvl message b extra st :
  globals st = module_globals p → Logging.WARNING <= lvl →
  mirrored st → mirrored (logged lvl message b extra st).
Proof.
  intros Hg Hl Hm. unfold mirrored. rewrite (logged_module p) by done. simpl.
  by rewrite fmap_app, Hm.
Qed.

Lemma mirrored_route path f st :
  route path = Some f → globals st = module_globals p →
  mirrored st → mirrored (snd (f st)).
Proof.
  unfold route. repeat case_bool_decide; intros [= <-] Hg Hm.
  - rewrite api_root_eq. by apply mirrored_logged.
  - rewrite make_error_eq; simpl.
    apply (mirrored_logged _ _ _ _ (set_handling (Some ZeroDivisionError) st));
      [done | unfold Logging.WARNING, Logging.ERROR; lia | done].
  - rewrite serve_frontend_eq; simpl. case_match; simpl; [done|].
    apply mirrored_logged; [done | unfold Logging.WARNING, Logging.ERROR; lia | done].
Qed.

Lemma mirrored_step e st :
  globals st = module_globals p → mirrored st → mirrored (snd (step e st)).
Proof.
  intros Hg Hm. destruct e as [[path]| | | |]; try done.
  rewrite step_request. cbn [snd]. unfold mirrored.
  rewrite handle_records, handle_stderr.
  destruct (route path) as [f|] eqn:E; [|done].
  by apply (mirrored_route path f (set_current_span _ (set_next_id _ st))).
Qed.

Lemma mirrored_after evs st :
  globals st = module_globals p → mirrored st → mirrored (after evs st).
Proof.
  revert st. induction evs as [|e evs IH]; intros st Hg Hm; [done|].
  rewrite after_cons. apply IH; [by rewrite step_globals | by apply mirrored_step].
Qed.

End Mirror.

Section Runs.
Import Main Py Http Os.

(** X7: The module attaches no handler to its logger, so every record it
    creates, at import or while serving a request, is handed to the
    last-resort handler and to nothing else: in every state the process
    reaches, standard error has received one entry per record created so
    far, and the log pipeline has received none. *)
Theorem records_go_to_stderr_only
    (p : Process) (fs0 : gmap string node) (evs : list event) :
  let st := after evs (startup p fs0) in
  length (stderr st) = length (records st) ∧
  Batch.arrivals (log_queue st) = 0%nat ∧
  Batch.queue (log_queue st) = [] ∧
  Batch.exports (log_queue st) = [].
Proof.
  intros st. split.
  - assert (mirrored st) as ->; [|by rewrite length_fmap].
    apply (mirrored_after p); [apply startup_globals|].
    unfold mirrored.
    pose proof (startup_outputs p fs0) as H. simpl in H.
    destruct (path_exists fs0 _).
    + by destruct H as (-> & -> & _).
    + by destruct H as (-> & -> & _).
  - subst st. by rewrite log_pipeline_never_fed.
Qed.

Lemma responses_app evs evs' st :
  responses (evs ++ evs') st = responses evs st ++ responses evs' (after evs st).
Proof.
  revert st. induction evs as [|e evs IH]; intros st; [done|].
  rewrite <- app_comm_cons, !responses_cons, after_cons, IH.
  by destruct (fst (step e st)).
Qed.

Lemma after_keeps_fs evs st :
  Forall (fun e => is_fs_event e = false) evs → fs (after evs st) = fs st.
Proof.
  revert st. induction evs as [|e evs IH]; intros st H; [done|].
  apply Forall_cons in H as [He H]. rewrite after_cons, IH by done.
  destruct e as [r| | | |]; try done. rewrite step_request. apply handle_fs.
Qed.

(** X8: The routes are stateless: as long as the file system is left alone,
    the response to a request is the same after any number of earlier
    requests and flushes as it would have been at the start, and serving
    requests never changes the file system. *)
Theorem response_independent_of_history
    (evs : list event) (r : request) (st : State) :
  Forall (fun e => is_fs_event e = false) evs →
  responses (evs ++ [Request r]) st = responses evs st ++ [fst (handle r st)] ∧
  fs (after evs st) = fs st.
Proof.
  intros H. split; [|by apply after_keeps_fs].
  rewrite responses_app, responses_cons, step_request. cbn [fst snd].
  do 2 f_equal. rewrite !handle_response. apply expected_response_same.
  split; [apply after_globals | by apply after_keeps_fs].
Qed.

Lemma response_independent_of_history_witness :
  let evs := [Request (GET "/error"); FlushSpans false; Request (GET "/")] in
  let st := startup sample_process sample_files in
  Forall (fun e => is_fs_event e = false) evs ∧
  responses (evs ++ [Request (GET "/api/root")]) st
  = responses evs st ++ [fst (handle (GET "/api/root") st)].
Proof.
  assert (Forall (fun e => is_fs_event e = false)
            [Request (GET "/error"); FlushSpans false; Request (GET "/")]) as H
    by (repeat constructor).
  split; [exact H|].
  apply (response_independent_of_history
           [Request (GET "/error"); FlushSpans false; Request (GET "/")]
           (GET "/api/root") (startup sample_process sample_files) H).
Defined.

(** X9: Each exporter endpoint determines the collector host: two processes
    whose span endpoints (or log endpoints) coincide use the same host. *)
Theorem endpoint_determines_host (p p' : Process) :
  Otel.endpoint (trace_exporter (module_globals p))
    = Otel.endpoint (trace_exporter (module_globals p')) ∨
  Otel.endpoint (log_exporter (module_globals p))
    = Otel.endpoint (log_exporter (module_globals p')) →
  alloy_host (module_globals p) = alloy_host (module_globals p').
Proof.
  simpl. intros [H|H]; apply (append_inv_head "http://") in H;
    by apply append_inv_tail in H.
Qed.

Lemma endpoint_determines_host_witness :
  let p := mkProcess {[ "ALLOY_HOST" := "localhost" ]} "main" "/app" in
  let p' := mkProcess {[ "ALLOY_HOST" := "localhost"; "HOME" := "/root" ]}
              "backend.main" "/srv" in
  Otel.endpoint (trace_exporter (module_globals p))
    = Otel.endpoint (trace_exporter (module_globals p')) ∧
  alloy_host (module_globals p) = alloy_host (module_globals p').
Proof.
  split; [reflexivity|].
  apply (endpoint_determines_host
           (mkProcess {[ "ALLOY_HOST" := "localhost" ]} "main" "/app")
           (mkProcess {[ "ALLOY_HOST" := "localhost"; "HOME" := "/root" ]}
              "backend.main" "/srv")).
  left. reflexivity.
Defined.

End Runs.

(** ** The resource and the module's log records *)

Section ResourceOnLogs.
Import Main Py Http Os.

Variable p : Process.

Lemma lacks_logged lvl message b extra st :
  globals st = module_globals p → Logging.WARNING <= lvl →
  extra !! "service.name" = None → extra !! "environment" = None →
  Forall lacks_resource (records st) →
  Forall lacks_resource (records (logged lvl message b extra st)).
Proof.
  intros Hg Hl H1 H2 Hr. rewrite (logged_module p) by done. simpl.
  apply Forall_app. split; [done|]. by repeat constructor.
Qed.

Lemma lacks_route path f st :
  route path = Some f → globals st = module_globals p →
  Forall lacks_resource (records st) →
  Forall lacks_resource (records (snd (f st))).
Proof.
  unfold route. repeat case_bool_decide; intros [= <-] Hg Hr.
  - rewrite api_root_eq. by apply lacks_logged.
  - rewrite make_error_eq; simpl.
    apply (lacks_logged _ _ _ _ (set_handling (Some ZeroDivisionError) st));
      [done | unfold Logging.WARNING, Logging.ERROR; lia | done..].
  - rewrite serve_frontend_eq; simpl. case_match; simpl; [done|].
    apply lacks_logged; [done | unfold Logging.WARNING, Logging.ERROR; lia | done..].
Qed.

Lemma lacks_step e st :
  globals st = module_globals p →
  Forall lacks_resource (records st) →
  Forall lacks_resource (records (snd (step e st))).
Proof.
  intros Hg Hr. destruct e as [[path]| | | |]; try done.
  rewrite step_request. cbn [snd]. rewrite handle_records.
  destruct (route path) as [f|] eqn:E; [|done].
  by apply (lacks_route path f (set_current_span _ (set_next_id _ st))).
Qed.

Lemma lacks_after evs st :
  globals st = module_globals p →
  Forall lacks_resource (records st) →
  Forall lacks_resource (records (after evs st)).
Proof.
  revert st. induction evs as [|e evs IH]; intros st Hg Hr; [done|].
  rewrite after_cons. apply IH; [by rewrite step_globals | by apply lacks_step].
Qed.

(** In every state the process reaches, no record created by the module's
    logger has a resource attribute, and the log pipeline, whose provider
    holds the resource, has received no record. *)
Lemma records_lack_resource (fs0 : gmap string node) (evs : list event) :
  let st := after evs (startup p fs0) in
  Forall lacks_resource (records st) ∧ log_queue st = Batch.empty.
Proof.
  intros st. split; [|apply log_pipeline_never_fed].
  apply lacks_after; [apply startup_globals|].
  pose proof (startup_outputs p fs0) as H. simpl in H.
  destruct (path_exists fs0 _).
  - destruct H as (-> & _). constructor.
  - destruct H as (-> & _). by repeat constructor.
Qed.

End ResourceOnLogs.

Section ResourceOnLogsExample.
Import Main Py Http Os.

(** C7, evaluated where it fails: after [GET /api/root] in a fresh process
    the request's span is queued with the resource (service name
    [fastapi-backend], environment [local-dev]), but the WARNING record the
    route function created has neither attribute, and the log pipeline,
    whose provider holds the resource, has received no record at all: the
    log record does not carry the resource the span carries. *)
Theorem log_record_without_resource :
  let st := startup sample_process sample_files in
  let st' := snd (handle (GET "/api/root") st) in
  let r := Logging.mkLogRecord Logging.WARNING
             "API root endpoint (/api/root) was called" None
             {[ "client.ip" := "127.0.0.1" ]} in
  Otel.span_resource <$> (snd <$> Batch.queue (span_queue st'))
    = [resource (globals st)] ∧
  Otel.attributes (resource (globals st)) !! "service.name" = Some "fastapi-backend" ∧
  Otel.attributes (resource (globals st)) !! "environment" = Some "local-dev" ∧
  records st' = records st ++ [r] ∧
  Logging.extra r !! "service.name" = None ∧
  Logging.extra r !! "environment" = None ∧
  log_queue st' = Batch.empty.
Proof. vm_compute. repeat split. Qed.

End ResourceOnLogsExample.
